(** * Fibonacci Lambda handler: a shallow embedding of [lambda_function.py]

    The module [lambda_function.py] holds four functions: [validate_input],
    [generate_fibonacci], [parse_event] and [lambda_handler].  Python is
    dynamically typed, so the embedding works over a type [pyval] of runtime
    values and an error monad [result] whose [Raise] stands for a raised
    exception.  Every primitive the source applies to a value of unknown
    type that can raise ([<], [>], [+], [range], list indexing, [.get]) is a
    function into that monad which raises where Python raises; [==] and
    [isinstance] never raise and are boolean functions.  For what one
    invocation leaves to the next, the module [Process] gives the handler
    and the generator once more over an explicit interpreter state. *)

From Stdlib Require Import ZArith NArith List String Ascii Bool Lia.
From Stdlib Require Import DecimalString DecimalPos DecimalZ.
From Stdlib Require Import Floats.SpecFloat.
Import ListNotations.

#[local] Set Warnings "-register-all".

Open Scope Z_scope.

(** ** Python runtime values *)

(** A Python [str] is a sequence of Unicode code points. *)
Definition pystr : Type := list N.

(** The [str] written by an ASCII literal of the source. *)
Definition str (s : string) : pystr :=
  map N_of_ascii (list_ascii_of_string s).

Fixpoint str_eqb (a b : pystr) : bool :=
  match a, b with
  | [], [] => true
  | x :: a', y :: b' => N.eqb x y && str_eqb a' b'
  | _, _ => false
  end.

(** The values an event decoded from JSON is made of.  A [float] is an
    IEEE 754 binary64 datum ([spec_float]); a [dict] keeps its items in
    insertion order and its keys are [str]. *)
Inductive pyval : Type :=
| PNone
| PBool (b : bool)
| PInt (z : Z)
| PFloat (f : spec_float)
| PStr (s : pystr)
| PList (items : list pyval)
| PDict (items : list (pystr * pyval)).

(** ** Exceptions and the error monad *)

(** The exception classes the primitives below raise; all of them derive
    from [Exception].  The handler binds the exception and never reads it,
    so the message text is not part of the model. *)
Inductive exn : Type :=
| TypeError
| AttributeError
| IndexError
| OverflowError.

Inductive result (A : Type) : Type :=
| Ret (a : A)
| Raise (e : exn).

Arguments Ret {A} a.
Arguments Raise {A} e.

Definition bind {A B : Type} (m : result A) (k : A -> result B) : result B :=
  match m with
  | Ret a => k a
  | Raise e => Raise e
  end.

Notation "x <- m ;; k" := (bind m (fun x => k))
  (at level 61, m at next level, right associativity).

(** [for x in items: s = body x s], stopping at the first exception. *)
Fixpoint for_each {S : Type} (items : list Z) (s : S)
    (body : Z -> S -> result S) : result S :=
  match items with
  | [] => Ret s
  | x :: rest => s' <- body x s ;; for_each rest s' body
  end.

(** ** Primitive operations *)

Definition is_None (v : pyval) : bool :=
  match v with PNone => true | _ => false end.

(** [isinstance(v, int)]: [bool] is a subclass of [int]. *)
Definition isinstance_int (v : pyval) : bool :=
  match v with PInt _ | PBool _ => true | _ => false end.

Definition isinstance_float (v : pyval) : bool :=
  match v with PFloat _ => true | _ => false end.

Definition isinstance_str (v : pyval) : bool :=
  match v with PStr _ => true | _ => false end.

(** The integer an instance of [int] stands for: [True] is 1, [False] is 0. *)
Definition int_value (v : pyval) : option Z :=
  match v with
  | PInt z => Some z
  | PBool b => Some (Z.b2z b)
  | _ => None
  end.

(** Exact comparison of a float with an integer, as Python performs it;
    [None] when the float is a NaN, which compares unordered. *)
Definition float_cmp_int (f : spec_float) (k : Z) : option comparison :=
  match f with
  | S754_nan => None
  | S754_infinity s => Some (if s then Lt else Gt)
  | S754_zero _ => Some (0 ?= k)
  | S754_finite s m e =>
      let v := if s then Z.neg m else Z.pos m in
      if 0 <=? e then Some (v * 2 ^ e ?= k) else Some (v ?= k * 2 ^ (- e))
  end.

Definition is_cmp (c : comparison) (o : option comparison) : bool :=
  match o, c with
  | Some Lt, Lt | Some Eq, Eq | Some Gt, Gt => true
  | _, _ => false
  end.

(** [v < k] for an integer [k]. *)
Definition py_lt_int (v : pyval) (k : Z) : result bool :=
  match v with
  | PInt z => Ret (z <? k)
  | PBool b => Ret (Z.b2z b <? k)
  | PFloat f => Ret (is_cmp Lt (float_cmp_int f k))
  | _ => Raise TypeError
  end.

(** [v > k] for an integer [k]. *)
Definition py_gt_int (v : pyval) (k : Z) : result bool :=
  match v with
  | PInt z => Ret (z >? k)
  | PBool b => Ret (Z.b2z b >? k)
  | PFloat f => Ret (is_cmp Gt (float_cmp_int f k))
  | _ => Raise TypeError
  end.

(** [v == k] for an integer [k]; equality never raises. *)
Definition py_eq_int (v : pyval) (k : Z) : bool :=
  match v with
  | PInt z => z =? k
  | PBool b => Z.b2z b =? k
  | PFloat f => is_cmp Eq (float_cmp_int f k)
  | _ => false
  end.

Definition prec : Z := 53.
Definition emax : Z := 1024.

(** [float(k)]: the nearest binary64, [OverflowError] when out of range. *)
Definition float_of_int (k : Z) : result spec_float :=
  match binary_normalize prec emax k 0 false with
  | S754_infinity _ => Raise OverflowError
  | f => Ret f
  end.

(** [v + k] for an integer [k]. *)
Definition py_add_int (v : pyval) (k : Z) : result pyval :=
  match v with
  | PInt z => Ret (PInt (z + k))
  | PBool b => Ret (PInt (Z.b2z b + k))
  | PFloat f => fk <- float_of_int k ;; Ret (PFloat (SFadd prec emax f fk))
  | _ => Raise TypeError
  end.

Fixpoint range_from (start : Z) (len : nat) : list Z :=
  match len with
  | O => []
  | S len' => start :: range_from (start + 1) len'
  end.

(** [range(start, stop)]: [stop] must be an instance of [int]. *)
Definition py_range (start : Z) (stop : pyval) : result (list Z) :=
  match int_value stop with
  | Some hi => Ret (range_from start (Z.to_nat (hi - start)))
  | None => Raise TypeError
  end.

(** [l[i]] on a list: a negative index counts from the end. *)
Definition py_getitem (l : list Z) (i : Z) : result Z :=
  let len := Z.of_nat (List.length l) in
  let j := if i <? 0 then i + len else i in
  if (j <? 0) || (len <=? j) then Raise IndexError
  else match nth_error l (Z.to_nat j) with
       | Some x => Ret x
       | None => Raise IndexError
       end.

Fixpoint assoc_get (key : pystr) (items : list (pystr * pyval)) : option pyval :=
  match items with
  | [] => None
  | (k, v) :: rest => if str_eqb k key then Some v else assoc_get key rest
  end.

(** [obj.get(key)]: only a [dict] has the attribute; a missing key gives
    [None]. *)
Definition py_get (obj : pyval) (key : pystr) : result pyval :=
  match obj with
  | PDict items =>
      match assoc_get key items with
      | Some v => Ret v
      | None => Ret PNone
      end
  | _ => Raise AttributeError
  end.

(** ** The source functions *)

Definition validate_input (n : pyval) : result (bool * pystr) :=
  if is_None n then
    Ret (false, str "Input parameter 'n' is required")
  else if negb (isinstance_int n) then
    if isinstance_float n then
      Ret (false, str "Input must be an integer")
    else if isinstance_str n then
      Ret (false, str "Input must be an integer")
    else
      Ret (false, str "Input must be an integer")
  else
    negative <- py_lt_int n 0 ;;
    if (negative : bool) then
      Ret (false, str "Input must be a non-negative integer")
    else
      too_big <- py_gt_int n 1000 ;;
      if (too_big : bool) then
        Ret (false, str "Input must not exceed 1000")
      else
        Ret (true, []).

Definition generate_fibonacci (n : pyval) : result (list Z) :=
  if py_eq_int n 0 then Ret [0]
  else if py_eq_int n 1 then Ret [0; 1]
  else
    stop <- py_add_int n 1 ;;
    indices <- py_range 2 stop ;;
    for_each indices [0; 1] (fun i sequence =>
      a <- py_getitem sequence (i - 1) ;;
      b <- py_getitem sequence (i - 2) ;;
      let next_value := a + b in
      Ret (sequence ++ [next_value])).

Definition parse_event (event : pyval) : result pyval :=
  py_get event (str "n").

(** ** [json.dumps]

    The standard library's encoder with its default arguments: items are
    separated by a comma and a space, a key from its value by a colon and a
    space, and every code point outside printable ASCII is escaped
    ([ensure_ascii]), so the text it returns is ASCII. *)

Definition hex_digit (d : N) : N :=
  (if d <? 10 then 48 + d else 87 + d)%N.

(** Four lowercase hexadecimal digits, the format [{0:04x}]. *)
Definition hex4 (n : N) : pystr :=
  [hex_digit (n / 4096 mod 16); hex_digit (n / 256 mod 16);
   hex_digit (n / 16 mod 16); hex_digit (n mod 16)]%N.

(** A backslash, the letter u and four digits. *)
Definition u_escape (n : N) : pystr := [92; 117]%N ++ hex4 n.

(** The replacement of one code point: the short escapes for the
    backslash, the double quote (code 34) and the five named control
    characters, the code point itself from the space to the tilde, and a
    [u] escape otherwise, as a surrogate pair beyond the basic plane. *)
Definition escape_char (c : N) : pystr :=
  (if c =? 92 then [92; 92]
   else if c =? 34 then [92; 34]
   else if c =? 8 then [92; 98]
   else if c =? 12 then [92; 102]
   else if c =? 10 then [92; 110]
   else if c =? 13 then [92; 114]
   else if c =? 9 then [92; 116]
   else if (32 <=? c) && (c <=? 126) then [c]
   else if c <? 65536 then u_escape c
   else
     let n := c - 65536 in
     u_escape (N.lor 55296 (N.land (N.shiftr n 10) 1023))
       ++ u_escape (N.lor 56320 (N.land n 1023)))%N.

Definition encode_str (s : pystr) : pystr :=
  [34%N] ++ flat_map escape_char s ++ [34%N].

(** [sep.join(parts)] *)
Fixpoint join (sep : pystr) (parts : list pystr) : pystr :=
  match parts with
  | [] => []
  | [p] => p
  | p :: rest => p ++ sep ++ join sep rest
  end.

(** The decimal text of an integer, [int.__repr__].  The interpreter
    refuses a conversion of more than 4300 digits; the handler encodes
    nothing beyond the term of index 1000, which has 209. *)
Definition int_repr (z : Z) : pystr :=
  str (NilEmpty.string_of_int (Z.to_int z)).

(** The dict the handler returns, with its three fixed keys. *)
Record response : Type := {
  statusCode : Z;
  headers : list (pystr * pystr);
  body : pystr
}.

Section Json.

(** [float.__repr__] on a finite float, the shortest decimal text that
    reads back as the same float.  It belongs to the interpreter and not
    to this module, and the handler never serialises a float, so it
    stays a parameter. *)
Variable float_repr : spec_float -> pystr.

Definition floatstr (f : spec_float) : pystr :=
  match f with
  | S754_nan => str "NaN"
  | S754_infinity false => str "Infinity"
  | S754_infinity true => str "-Infinity"
  | _ => float_repr f
  end.

Fixpoint json_dumps (o : pyval) : pystr :=
  match o with
  | PNone => str "null"
  | PBool true => str "true"
  | PBool false => str "false"
  | PInt z => int_repr z
  | PFloat f => floatstr f
  | PStr s => encode_str s
  | PList items =>
      str "[" ++ join (str ", ") (map json_dumps items) ++ str "]"
  | PDict items =>
      str "{"
        ++ join (str ", ")
             (map (fun kv => let '(k, v) := kv in
                             encode_str k ++ str ": " ++ json_dumps v)
                  items)
        ++ str "}"
  end.

(** ** The handler *)

(** The body of the [try] block. *)
Definition handler_try (event : pyval) : result response :=
  n <- parse_event event ;;
  validated <- validate_input n ;;
  let '(is_valid, error_message) := validated in
  if negb is_valid then
    Ret {| statusCode := 400;
           headers := [(str "Content-Type", str "application/json")];
           body := json_dumps (PDict [(str "error", PStr error_message)]) |}
  else
    sequence <- generate_fibonacci n ;;
    Ret {| statusCode := 200;
           headers := [(str "Content-Type", str "application/json")];
           body := json_dumps (PDict [(str "n", n);
                                      (str "sequence",
                                       PList (map PInt sequence))]) |}.

(** [try: ... except Exception as e: ...]; the context is never read. *)
Definition lambda_handler {C : Type} (event : pyval) (context : C)
    : response :=
  match handler_try event with
  | Ret r => r
  | Raise e =>
      {| statusCode := 500;
         headers := [(str "Content-Type", str "application/json")];
         body := json_dumps
                   (PDict [(str "error", PStr (str "Internal server error"))]) |}
  end.

(** ** The shapes of a response body *)

(** The encoding of a dict with the one key [error] and a text. *)
Definition error_body (b : pystr) : Prop :=
  exists message : pystr,
    b = json_dumps (PDict [(str "error", PStr message)]).

(** The encoding of a dict with the keys [n], an integer, and
    [sequence], a list of integers. *)
Definition result_body (b : pystr) : Prop :=
  exists (n : Z) (sequence : list Z),
    b = json_dumps (PDict [(str "n", PInt n);
                           (str "sequence", PList (map PInt sequence))]).

(** The same with [n] any instance of [int], a boolean included. *)
Definition echo_body (b : pystr) : Prop :=
  exists (n : pyval) (sequence : list Z),
    isinstance_int n = true
    /\ b = json_dumps (PDict [(str "n", n);
                              (str "sequence", PList (map PInt sequence))]).

End Json.

(** A step of the chain extract, validate, generate raises [e]; a failed
    validation is no exception, it is the pair [validate_input] returns. *)
Inductive chain_raises (event : pyval) (e : exn) : Prop :=
| extract_raises :
    parse_event event = Raise e -> chain_raises event e
| validate_raises (n : pyval) :
    parse_event event = Ret n -> validate_input n = Raise e ->
    chain_raises event e
| generate_raises (n : pyval) (message : pystr) :
    parse_event event = Ret n -> validate_input n = Ret (true, message) ->
    generate_fibonacci n = Raise e -> chain_raises event e.

(** A stand-in for [float.__repr__] where a closed example needs one. *)
Definition no_float_repr (f : spec_float) : pystr := str "0.0".

(** ** The handler inside one execution environment

    The runtime keeps one interpreter process alive between invocations.
    What an invocation finds there and leaves behind is the set of imported
    modules and the heap of list objects: a list is a mutable object,
    [sequence = [0, 1]] allocates a new one, [sequence.append] changes it in
    place, and [sequence[i]] reads it.  The functions that touch this state
    are given a second time below, threading the process through every
    step; the values they compute on are the same as above.  Nothing is
    ever freed: an address is the position of a list in the heap. *)
Module Process.

Record process : Type := {
  modules : list string;
  heap : list (list Z)
}.

(** A computation may change the process and may raise; what it did to
    the process before raising stays done. *)
Definition M (A : Type) : Type := process -> result A * process.

Definition ret {A : Type} (a : A) : M A := fun p => (Ret a, p).

(** A step that does not touch the process. *)
Definition lift {A : Type} (r : result A) : M A := fun p => (r, p).

Definition bind {A B : Type} (m : M A) (k : A -> M B) : M B :=
  fun p =>
    match m p with
    | (Ret a, p') => k a p'
    | (Raise e, p') => (Raise e, p')
    end.

Notation "x <~ m ;; k" := (bind m (fun x => k))
  (at level 61, m at next level, right associativity).

(** [try: m except Exception as e: h e] *)
Definition try_except {A : Type} (m : M A) (h : exn -> M A) : M A :=
  fun p =>
    match m p with
    | (Raise e, p') => h e p'
    | done => done
    end.

(** [for x in items: body x] *)
Fixpoint for_each (items : list Z) (body : Z -> M unit) : M unit :=
  match items with
  | [] => ret tt
  | x :: rest => _ <~ body x ;; for_each rest body
  end.

(** [import name]: the module is loaded the first time and found in the
    table of loaded modules afterwards. *)
Definition import_module (name : string) : M unit :=
  fun p =>
    if existsb (String.eqb name) (modules p) then (Ret tt, p)
    else (Ret tt, {| modules := name :: modules p; heap := heap p |}).

Fixpoint list_update {A : Type} (l : list A) (i : nat) (x : A) : list A :=
  match l, i with
  | [], _ => []
  | _ :: t, O => x :: t
  | h :: t, S i' => h :: list_update t i' x
  end.

(** A list display: a new object at the next free address. *)
Definition new_list (items : list Z) : M nat :=
  fun p =>
    (Ret (List.length (heap p)),
     {| modules := modules p; heap := heap p ++ [items] |}).

(** The elements of the list at an address. *)
Definition contents (a : nat) (p : process) : list Z := nth a (heap p) [].

Definition list_items (a : nat) : M (list Z) :=
  fun p => (Ret (contents a p), p).

(** [l[i]] on the list at address [a]. *)
Definition list_getitem (a : nat) (i : Z) : M Z :=
  fun p => (py_getitem (contents a p) i, p).

(** [l.append(x)] on the list at address [a], in place. *)
Definition list_append (a : nat) (x : Z) : M unit :=
  fun p =>
    (Ret tt,
     {| modules := modules p;
        heap := list_update (heap p) a (contents a p ++ [x]) |}).

(** [generate_fibonacci]; the result is the address of the list. *)
Definition generate_fibonacci (n : pyval) : M nat :=
  if py_eq_int n 0 then new_list [0]
  else if py_eq_int n 1 then new_list [0; 1]
  else
    sequence <~ new_list [0; 1] ;;
    stop <~ lift (py_add_int n 1) ;;
    indices <~ lift (py_range 2 stop) ;;
    _ <~ for_each indices (fun i =>
           a <~ list_getitem sequence (i - 1) ;;
           b <~ list_getitem sequence (i - 2) ;;
           let next_value := a + b in
           list_append sequence next_value) ;;
    ret sequence.

Section Handler.

Variable float_repr : spec_float -> pystr.

(** [lambda_handler]: the import, then the guarded chain; [json.dumps]
    reads the list the generator returned. *)
Definition lambda_handler {C : Type} (event : pyval) (context : C)
    : M response :=
  _ <~ import_module "json" ;;
  try_except
    (n <~ lift (parse_event event) ;;
     validated <~ lift (validate_input n) ;;
     let '(is_valid, error_message) := validated in
     if negb is_valid then
       ret {| statusCode := 400;
              headers := [(str "Content-Type", str "application/json")];
              body := json_dumps float_repr
                        (PDict [(str "error", PStr error_message)]) |}
     else
       sequence <~ generate_fibonacci n ;;
       items <~ list_items sequence ;;
       ret {| statusCode := 200;
              headers := [(str "Content-Type", str "application/json")];
              body := json_dumps float_repr
                        (PDict [(str "n", n);
                                (str "sequence", PList (map PInt items))]) |})
    (fun e =>
       ret {| statusCode := 500;
              headers := [(str "Content-Type", str "application/json")];
              body := json_dumps float_repr
                        (PDict [(str "error",
                                 PStr (str "Internal server error"))]) |}).

(** The invocations of a list of requests, one after the other in the
    same process, with what each returned. *)
Fixpoint serve {C : Type} (requests : list (pyval * C)) (p : process)
    : list (result response) * process :=
  match requests with
  | [] => ([], p)
  | (event, context) :: rest =>
      let '(r, p') := lambda_handler event context p in
      let '(rs, p'') := serve rest p' in
      (r :: rs, p'')
  end.

End Handler.

End Process.

(** ** Specification-side definitions *)

(** The Fibonacci numbers, by their recurrence. *)
Fixpoint fib (n : nat) : Z :=
  match n with
  | O => 0
  | S p => match p with
           | O => 1
           | S q => fib p + fib q
           end
  end.

(** The terms of index 0 to [len - 1]. *)
Definition fib_list (len : nat) : list Z := map fib (seq 0 len).

(** [validate_input] answers with [valid = False]. *)
Definition rejects (v : pyval) : Prop :=
  exists message, validate_input v = Ret (false, message).

(** An ASCII text between two double quotes (code 34). *)
Definition quoted (s : string) : pystr := [34%N] ++ str s ++ [34%N].

(** The float 5.0 and the text made of the digit 5. *)
Definition float_five : spec_float := S754_finite false 5629499534213120 (-50).
Definition text_five : pystr := str "5".

(** The four messages of a failed validation. *)
Definition validation_messages : list pystr :=
  [str "Input parameter 'n' is required";
   str "Input must be an integer";
   str "Input must be a non-negative integer";
   str "Input must not exceed 1000"].

(** A code point from the space to the tilde. *)
Definition printable (c : N) : bool := ((32 <=? c) && (c <=? 126))%N.

(** The body that carries [message] under the key [error], written out
    with the message between two double quotes and nothing escaped. *)
Definition error_text (message : pystr) : pystr :=
  str "{" ++ quoted "error" ++ str ": " ++ [34%N] ++ message ++ [34%N] ++ str "}".

(** * Properties of [validate_input] *)

Lemma validate_input_int (z : Z) :
  validate_input (PInt z) =
    if z <? 0 then Ret (false, str "Input must be a non-negative integer")
    else if z >? 1000 then Ret (false, str "Input must not exceed 1000")
    else Ret (true, []).
Proof.
  unfold validate_input; cbn [is_None isinstance_int negb py_lt_int py_gt_int bind].
  destruct (z <? 0); [reflexivity|].
  destruct (z >? 1000); reflexivity.
Qed.

Lemma validate_input_bool (b : bool) :
  validate_input (PBool b) = validate_input (PInt (Z.b2z b)).
Proof. destruct b; reflexivity. Qed.

Lemma validate_input_of_int_value (v : pyval) (z : Z) :
  int_value v = Some z -> validate_input v = validate_input (PInt z).
Proof.
  destruct v; cbn [int_value]; intros H; try discriminate;
    injection H as <-; [apply validate_input_bool | reflexivity].
Qed.

Lemma validate_input_not_int (v : pyval) :
  v <> PNone -> int_value v = None ->
  validate_input v = Ret (false, str "Input must be an integer").
Proof.
  destruct v; cbn [int_value]; intros Hn Hi; try discriminate;
    try reflexivity.
  contradiction Hn; reflexivity.
Qed.

(** C3: the rules of [validate_input] in their order.  An absent input
    fails first; then a value that is no instance of [int] (a float such as
    5.0 and a text such as the digit 5 among them); then a negative integer;
    then an integer above 1000; what is left is valid with the empty
    message.  An integer is what [isinstance(n, int)] accepts, read through
    [int_value].  The five cases cover every value, and each one assumes that
    the rules before it passed. *)
Theorem validate_input_rule_order :
  validate_input PNone = Ret (false, str "Input parameter 'n' is required")
  /\ (forall v, v <> PNone -> int_value v = None ->
        validate_input v = Ret (false, str "Input must be an integer"))
  /\ (forall v z, int_value v = Some z -> z < 0 ->
        validate_input v = Ret (false, str "Input must be a non-negative integer"))
  /\ (forall v z, int_value v = Some z -> 0 <= z -> 1000 < z ->
        validate_input v = Ret (false, str "Input must not exceed 1000"))
  /\ (forall v z, int_value v = Some z -> 0 <= z -> z <= 1000 ->
        validate_input v = Ret (true, []))
  /\ (forall v, v = PNone \/ (v <> PNone /\ int_value v = None)
                 \/ (exists z, int_value v = Some z))
  /\ validate_input (PFloat float_five) = Ret (false, str "Input must be an integer")
  /\ validate_input (PStr text_five) = Ret (false, str "Input must be an integer")
  /\ validate_input (PInt 0) = Ret (true, [])
  /\ validate_input (PInt 1000) = Ret (true, [])
  /\ validate_input (PInt (-1)) = Ret (false, str "Input must be a non-negative integer")
  /\ validate_input (PInt 1001) = Ret (false, str "Input must not exceed 1000").
Proof.
  split; [reflexivity|].
  split; [exact validate_input_not_int|].
  split.
  { intros v z Hv Hz. rewrite (validate_input_of_int_value v z Hv), validate_input_int.
    apply Z.ltb_lt in Hz. rewrite Hz. reflexivity. }
  split.
  { intros v z Hv H0 Hz. rewrite (validate_input_of_int_value v z Hv), validate_input_int.
    apply Z.ltb_ge in H0. rewrite H0.
    apply Z.gtb_lt in Hz. rewrite Hz. reflexivity. }
  split.
  { intros v z Hv H0 Hz. rewrite (validate_input_of_int_value v z Hv), validate_input_int.
    apply Z.ltb_ge in H0. rewrite H0.
    destruct (z >? 1000) eqn:E; [apply Z.gtb_lt in E; lia | reflexivity]. }
  split.
  { intros v. destruct v; cbn [int_value]; eauto;
      right; left; (split; [discriminate | reflexivity]). }
  repeat split; reflexivity.
Qed.

(** C4, as the code has it: a boolean is an instance of [int], so
    [validate_input] accepts both [True] and [False] (as 1 and 0) with the
    empty message. *)
Theorem validate_input_accepts_bool :
  forall b : bool, validate_input (PBool b) = Ret (true, []).
Proof. intros [|]; reflexivity. Qed.

(** C4 as stated fails at [True]: the input is not rejected. *)
Lemma validate_input_true_not_rejected :
  validate_input (PBool true) = Ret (true, []) /\ ~ rejects (PBool true).
Proof.
  split; [reflexivity|].
  intros [message H]. discriminate H.
Qed.

(** The comparisons of [validate_input] raise on a value that is no
    number, and the [isinstance] gate before them lets only numbers
    through. *)
Lemma validate_input_returns (v : pyval) :
  exists valid message, validate_input v = Ret (valid, message).
Proof.
  destruct v as [ | b | z | f | s | l | d ];
    try (eexists; eexists; reflexivity).
  - rewrite validate_input_bool, validate_input_int.
    destruct (_ <? 0); [|destruct (_ >? 1000)]; eexists; eexists; reflexivity.
  - rewrite validate_input_int.
    destruct (_ <? 0); [|destruct (_ >? 1000)]; eexists; eexists; reflexivity.
Qed.

(** C7: on every value, of whatever runtime type, [validate_input] returns
    a pair of a flag and a message, and it raises no exception. *)
Theorem validate_input_total :
  forall v : pyval,
    (exists valid message, validate_input v = Ret (valid, message))
    /\ (forall e : exn, validate_input v <> Raise e).
Proof.
  intros v. destruct (validate_input_returns v) as (valid & message & H).
  split.
  - exists valid, message. exact H.
  - intros e He. rewrite H in He. discriminate He.
Qed.

(** C8: in the pair [validate_input] returns, the message is empty exactly
    when the flag is true. *)
Theorem validate_input_message_iff :
  forall v : pyval, exists valid message,
    validate_input v = Ret (valid, message) /\ (message = [] <-> valid = true).
Proof.
  assert (Hint : forall z, exists valid message,
             validate_input (PInt z) = Ret (valid, message)
             /\ (message = [] <-> valid = true)).
  { intros z. rewrite validate_input_int.
    destruct (_ <? 0); [|destruct (_ >? 1000)];
      eexists; eexists; (split; [reflexivity|]); split; intros H;
      try discriminate H; reflexivity. }
  intros v. destruct v as [ | b | z | f | s | l | d ];
    try (eexists; eexists; (split; [reflexivity|]); split; intros H;
         discriminate H).
  - rewrite validate_input_bool. apply Hint.
  - apply Hint.
Qed.

(** * Properties of [generate_fibonacci] *)

Lemma fib_list_length (len : nat) : List.length (fib_list len) = len.
Proof. unfold fib_list. rewrite length_map, length_seq. reflexivity. Qed.

Lemma fib_list_nth (len i : nat) :
  (i < len)%nat -> nth_error (fib_list len) i = Some (fib i).
Proof.
  intros Hi. unfold fib_list.
  rewrite nth_error_map, nth_error_seq.
  destruct (Nat.ltb_spec i len) as [_|Hge]; [reflexivity | lia].
Qed.

Lemma fib_list_snoc (len : nat) :
  fib_list (S len) = fib_list len ++ [fib len].
Proof. unfold fib_list. rewrite seq_S, map_app. reflexivity. Qed.

Lemma fib_rec (k : nat) : fib (S (S k)) = fib (S k) + fib k.
Proof. reflexivity. Qed.

(** Indexing the list of the first [len] terms at a position it has. *)
Lemma py_getitem_fib_list (len i : nat) :
  (i < len)%nat -> py_getitem (fib_list len) (Z.of_nat i) = Ret (fib i).
Proof.
  intros Hi. unfold py_getitem. rewrite fib_list_length.
  assert (Hneg : (Z.of_nat i <? 0) = false) by (apply Z.ltb_ge; lia).
  assert (Hin : (Z.of_nat len <=? Z.of_nat i) = false) by (apply Z.leb_gt; lia).
  cbv zeta. rewrite Hneg. cbv iota. rewrite Hneg, Hin. cbn [orb].
  rewrite Nat2Z.id, fib_list_nth by assumption. reflexivity.
Qed.

(** The loop invariant: entering iteration [j] the list holds the terms of
    index below [j], and no index the body reads is out of range. *)
Lemma fib_loop (len j : nat) :
  (2 <= j)%nat ->
  for_each (range_from (Z.of_nat j) len) (fib_list j)
    (fun i sequence =>
       a <- py_getitem sequence (i - 1) ;;
       b <- py_getitem sequence (i - 2) ;;
       let next_value := a + b in
       Ret (sequence ++ [next_value]))
  = Ret (fib_list (j + len)).
Proof.
  revert j. induction len as [|len IH]; intros j Hj.
  - cbn [range_from for_each]. rewrite Nat.add_0_r. reflexivity.
  - cbn [range_from for_each].
    destruct j as [|[|k]]; [lia | lia |].
    replace (Z.of_nat (S (S k)) - 1) with (Z.of_nat (S k)) by lia.
    replace (Z.of_nat (S (S k)) - 2) with (Z.of_nat k) by lia.
    rewrite !py_getitem_fib_list by lia.
    cbn [bind]. rewrite <- fib_rec, <- fib_list_snoc.
    replace (Z.of_nat (S (S k)) + 1) with (Z.of_nat (S (S (S k)))) by lia.
    rewrite IH by lia. f_equal. f_equal. lia.
Qed.

(** On a non-negative integer the function returns the terms of index 0
    to [n]; there is no bound on [n]. *)
Lemma generate_fibonacci_fib_list (n : Z) :
  0 <= n -> generate_fibonacci (PInt n) = Ret (fib_list (S (Z.to_nat n))).
Proof.
  intros Hn. unfold generate_fibonacci. cbn [py_eq_int].
  destruct (Z.eqb_spec n 0) as [->|H0]; [reflexivity|].
  destruct (Z.eqb_spec n 1) as [->|H1]; [reflexivity|].
  cbn [py_add_int bind py_range int_value].
  etransitivity; [apply (fib_loop (Z.to_nat (n + 1 - 2)) 2); lia|].
  f_equal. f_equal. lia.
Qed.

(** C1: for [0 <= n <= 1000] the list [generate_fibonacci] returns has
    [n + 1] elements, starts with 0, has 1 at index 1 when [n >= 1], and
    each element of index [i >= 2] is the sum of the two before it. *)
Theorem generate_fibonacci_sequence :
  forall n : Z, 0 <= n <= 1000 ->
  exists sequence,
    generate_fibonacci (PInt n) = Ret sequence
    /\ Z.of_nat (List.length sequence) = n + 1
    /\ nth_error sequence 0 = Some 0
    /\ (1 <= n -> nth_error sequence 1 = Some 1)
    /\ (forall i : nat, (2 <= i)%nat -> Z.of_nat i <= n ->
          exists a b,
            nth_error sequence (i - 1) = Some a
            /\ nth_error sequence (i - 2) = Some b
            /\ nth_error sequence i = Some (a + b)).
Proof.
  intros n [Hlo _]. exists (fib_list (S (Z.to_nat n))).
  split; [apply generate_fibonacci_fib_list; assumption|].
  split; [rewrite fib_list_length; lia|].
  split; [reflexivity|].
  split; [intros H1; apply (fib_list_nth _ 1); lia|].
  intros i Hi Hin. exists (fib (i - 1)), (fib (i - 2)).
  rewrite !fib_list_nth by lia.
  repeat split.
  destruct i as [|[|k]]; [lia | lia |].
  replace (S (S k) - 1)%nat with (S k) by lia.
  replace (S (S k) - 2)%nat with k by lia.
  rewrite fib_rec. reflexivity.
Qed.

Lemma generate_fibonacci_sequence_witness :
  0 <= 5 <= 1000 /\
  exists sequence,
    generate_fibonacci (PInt 5) = Ret sequence
    /\ Z.of_nat (List.length sequence) = 5 + 1
    /\ nth_error sequence 0 = Some 0
    /\ (1 <= 5 -> nth_error sequence 1 = Some 1)
    /\ (forall i : nat, (2 <= i)%nat -> Z.of_nat i <= 5 ->
          exists a b,
            nth_error sequence (i - 1) = Some a
            /\ nth_error sequence (i - 2) = Some b
            /\ nth_error sequence i = Some (a + b)).
Proof.
  split; [lia | apply (generate_fibonacci_sequence 5); lia].
Defined.

(** C10: on a negative integer neither edge case applies and the range is
    empty, so the function returns the seed list of 0 and 1. *)
Theorem generate_fibonacci_negative :
  forall n : Z, n < 0 -> generate_fibonacci (PInt n) = Ret [0; 1].
Proof.
  intros n Hn. unfold generate_fibonacci. cbn [py_eq_int].
  destruct (Z.eqb_spec n 0) as [->|_]; [lia|].
  destruct (Z.eqb_spec n 1) as [->|_]; [lia|].
  cbn [py_add_int bind py_range int_value].
  replace (Z.to_nat (n + 1 - 2)) with 0%nat by lia.
  reflexivity.
Qed.

Lemma generate_fibonacci_negative_witness :
  -5 < 0 /\ generate_fibonacci (PInt (-5)) = Ret [0; 1].
Proof.
  split; [lia | apply (generate_fibonacci_negative (-5)); lia].
Defined.

(** * Properties of [json_dumps] *)

Lemma string_of_uint_head (d : Decimal.uint) :
  d <> Decimal.Nil ->
  exists c rest, str (NilEmpty.string_of_uint d) = c :: rest /\ (48 <= c <= 57)%N.
Proof.
  intros Hd. destruct d; [contradiction Hd; reflexivity | ..];
    cbn [NilEmpty.string_of_uint str list_ascii_of_string map];
    eexists; eexists; (split; [reflexivity | cbn; lia]).
Qed.

(** The decimal text of an integer starts with a digit or the minus sign. *)
Lemma int_repr_head (z : Z) :
  exists c rest, int_repr z = c :: rest /\ (c = 45 \/ 48 <= c <= 57)%N.
Proof.
  unfold int_repr. destruct z as [|p|p]; cbn [Z.to_int NilEmpty.string_of_int].
  - exists 48%N, []. split; [reflexivity | right; lia].
  - destruct (string_of_uint_head (Pos.to_uint p) (Unsigned.to_uint_nonnil p))
      as (c & rest & -> & Hc).
    exists c, rest. split; [reflexivity | right; exact Hc].
  - eexists; eexists. split; [reflexivity | left; reflexivity].
Qed.

Section JsonProperties.

Variable float_repr : spec_float -> pystr.

Lemma json_dumps_error (message : pystr) :
  json_dumps float_repr (PDict [(str "error", PStr message)])
  = str "{" ++ quoted "error" ++ str ": " ++ encode_str message ++ str "}".
Proof. reflexivity. Qed.

Lemma json_dumps_echo (n : pyval) (sequence : list Z) :
  json_dumps float_repr
    (PDict [(str "n", n); (str "sequence", PList (map PInt sequence))])
  = str "{" ++ quoted "n" ++ str ": "
      ++ (json_dumps float_repr n
            ++ str ", " ++ quoted "sequence" ++ str ": "
            ++ json_dumps float_repr (PList (map PInt sequence)))
      ++ str "}".
Proof. reflexivity. Qed.

(** The two shapes differ at the first letter of the key. *)
Lemma error_body_not_echo (b : pystr) :
  error_body float_repr b -> ~ echo_body float_repr b.
Proof.
  intros [message Hm] (n & sequence & _ & Hn).
  rewrite Hm, json_dumps_error, json_dumps_echo in Hn.
  discriminate Hn.
Qed.

Lemma result_body_echo (b : pystr) :
  result_body float_repr b -> echo_body float_repr b.
Proof.
  intros (n & sequence & H). exists (PInt n), sequence.
  split; [reflexivity | exact H].
Qed.

End JsonProperties.

(** * Properties of [lambda_handler] *)

(** What a successful validation says of the value. *)
Lemma validate_input_valid (n : pyval) (message : pystr) :
  validate_input n = Ret (true, message) ->
  message = [] /\ exists z, int_value n = Some z /\ 0 <= z <= 1000.
Proof.
  assert (Hint : forall z, validate_input (PInt z) = Ret (true, message) ->
                           message = [] /\ 0 <= z <= 1000).
  { intros z. rewrite validate_input_int.
    destruct (Z.ltb_spec z 0); [discriminate|].
    destruct (z >? 1000) eqn:E; [discriminate|].
    intros [= <-]. split; [reflexivity|].
    destruct (Z.gtb_spec z 1000); [discriminate | lia]. }
  destruct n as [ | b | z | f | s | l | d ]; try discriminate.
  - rewrite validate_input_bool. intros H. apply Hint in H as [-> Hz].
    split; [reflexivity|]. exists (Z.b2z b). split; [reflexivity | exact Hz].
  - intros H. apply Hint in H as [-> Hz].
    split; [reflexivity|]. exists z. split; [reflexivity | exact Hz].
Qed.

Lemma generate_fibonacci_of_int_value (n : pyval) (z : Z) :
  int_value n = Some z -> generate_fibonacci n = generate_fibonacci (PInt z).
Proof.
  destruct n as [ | b | z' | f | s | l | d ]; cbn [int_value]; intros H;
    try discriminate; injection H as <-; [destruct b|]; reflexivity.
Qed.

(** After a successful validation the generator does not raise. *)
Lemma generate_fibonacci_after_validation (n : pyval) (message : pystr) :
  validate_input n = Ret (true, message) ->
  exists sequence, generate_fibonacci n = Ret sequence.
Proof.
  intros H. apply validate_input_valid in H as (_ & z & Hz & Hrange).
  rewrite (generate_fibonacci_of_int_value n z Hz).
  rewrite generate_fibonacci_fib_list by lia. eexists; reflexivity.
Qed.

(** Only the extraction can raise, and it does so exactly on an event that
    is no dict: validation is total and the generator is called on a
    validated value. *)
Lemma chain_raises_extract (event : pyval) (e : exn) :
  chain_raises event e <-> parse_event event = Raise e.
Proof.
  split; [|apply extract_raises].
  intros [Hp | n Hp Hv | n message Hp Hv Hg]; [exact Hp | |].
  - destruct (validate_input_returns n) as (valid & message & H).
    rewrite H in Hv. discriminate Hv.
  - destruct (generate_fibonacci_after_validation n message Hv) as [l H].
    rewrite H in Hg. discriminate Hg.
Qed.

Lemma parse_event_raises (event : pyval) (e : exn) :
  parse_event event = Raise e <->
  e = AttributeError /\ forall items, event <> PDict items.
Proof.
  unfold parse_event, py_get. split.
  - destruct event; try (intros [= <-]; split; [reflexivity | discriminate]).
    destruct (assoc_get _ _); discriminate.
  - intros [-> Hd]. destruct event; try reflexivity.
    contradiction (Hd items); reflexivity.
Qed.

Section HandlerProperties.

Variable float_repr : spec_float -> pystr.

(** C2: the three end-to-end examples.  The event with [n = 5] and the
    event with [n = 0] give status 200 and the encoding of [n] with its
    sequence; the empty event gives status 400 and the encoding of the
    message that [n] is required. *)
Theorem lambda_handler_end_to_end :
  forall (C : Type) (context : C),
    lambda_handler float_repr (PDict [(str "n", PInt 5)]) context
    = {| statusCode := 200;
         headers := [(str "Content-Type", str "application/json")];
         body := str "{" ++ quoted "n" ++ str ": 5, "
                   ++ quoted "sequence" ++ str ": [0, 1, 1, 2, 3, 5]}" |}
    /\ lambda_handler float_repr (PDict [(str "n", PInt 0)]) context
       = {| statusCode := 200;
            headers := [(str "Content-Type", str "application/json")];
            body := str "{" ++ quoted "n" ++ str ": 0, "
                      ++ quoted "sequence" ++ str ": [0]}" |}
    /\ lambda_handler float_repr (PDict []) context
       = {| statusCode := 400;
            headers := [(str "Content-Type", str "application/json")];
            body := str "{" ++ quoted "error" ++ str ": "
                      ++ quoted "Input parameter 'n' is required"
                      ++ str "}" |}.
Proof. intros C context. repeat split. Qed.

(** C5: when a step of the chain raises, whatever the exception, the
    handler returns status 500 and the encoding of the fixed message, in
    which nothing of the exception appears. *)
Theorem lambda_handler_internal_error :
  forall (C : Type) (event : pyval) (context : C) (e : exn),
    chain_raises event e ->
    lambda_handler float_repr event context
    = {| statusCode := 500;
         headers := [(str "Content-Type", str "application/json")];
         body := str "{" ++ quoted "error" ++ str ": "
                   ++ quoted "Internal server error" ++ str "}" |}.
Proof.
  intros C event context e H. unfold lambda_handler, handler_try.
  destruct H as [Hp | n Hp Hv | n message Hp Hv Hg]; rewrite Hp; cbn [bind].
  - reflexivity.
  - rewrite Hv. reflexivity.
  - rewrite Hv. cbn [bind negb]. rewrite Hg. reflexivity.
Qed.

(** The three outcomes of the handler, by the step that decides each. *)
Lemma lambda_handler_cases (C : Type) (event : pyval) (context : C) :
  let r := lambda_handler float_repr event context in
  (statusCode r = 500
   /\ body r = json_dumps float_repr
                 (PDict [(str "error", PStr (str "Internal server error"))]))
  \/ (exists message,
        statusCode r = 400
        /\ body r = json_dumps float_repr (PDict [(str "error", PStr message)]))
  \/ (exists n sequence,
        statusCode r = 200 /\ isinstance_int n = true
        /\ body r = json_dumps float_repr
                      (PDict [(str "n", n);
                              (str "sequence", PList (map PInt sequence))])).
Proof.
  unfold lambda_handler, handler_try.
  destruct (parse_event event) as [n|e]; cbn [bind]; [|left; split; reflexivity].
  destruct (validate_input_returns n) as (valid & message & Hv).
  rewrite Hv. cbn [bind]. destruct valid; cbn [negb].
  - destruct (generate_fibonacci_after_validation n message Hv) as [sequence Hg].
    rewrite Hg. cbn [bind]. right; right. exists n, sequence.
    split; [reflexivity|]. split; [|reflexivity].
    apply validate_input_valid in Hv as (_ & z & Hz & _).
    destruct n; cbn in Hz; try discriminate; reflexivity.
  - right; left. exists message. split; reflexivity.
Qed.

Lemma lambda_handler_headers (C : Type) (event : pyval) (context : C) :
  headers (lambda_handler float_repr event context)
  = [(str "Content-Type", str "application/json")].
Proof.
  unfold lambda_handler, handler_try.
  destruct (parse_event event) as [n|e]; cbn [bind]; [|reflexivity].
  destruct (validate_input n) as [[valid message]|e]; cbn [bind]; [|reflexivity].
  destruct valid; cbn [negb]; [|reflexivity].
  destruct (generate_fibonacci n); reflexivity.
Qed.

(** C6, as the code has it: the status is 200, 400 or 500, the headers
    are the one JSON content type, and the body is the encoding of
    exactly one of two objects: the key [error] with a text, or the key
    [n] with the input echoed, an instance of [int] (an integer or a
    boolean), and the key [sequence] with a list of integers. *)
Theorem lambda_handler_response_shape :
  forall (C : Type) (event : pyval) (context : C),
    let r := lambda_handler float_repr event context in
    (statusCode r = 200 \/ statusCode r = 400 \/ statusCode r = 500)
    /\ headers r = [(str "Content-Type", str "application/json")]
    /\ ((error_body float_repr (body r) /\ ~ echo_body float_repr (body r))
        \/ (echo_body float_repr (body r) /\ ~ error_body float_repr (body r))).
Proof.
  intros C event context r. subst r.
  split; [|split; [apply lambda_handler_headers|]].
  - destruct (lambda_handler_cases C event context)
      as [[H _] | [(m & H & _) | (n & l & H & _)]]; auto.
  - destruct (lambda_handler_cases C event context)
      as [[_ H] | [(m & _ & H) | (n & l & _ & Hn & H)]].
    + left. assert (He : error_body float_repr
                           (body (lambda_handler float_repr event context)))
        by (eexists; exact H).
      split; [exact He | exact (error_body_not_echo _ _ He)].
    + left. assert (He : error_body float_repr
                           (body (lambda_handler float_repr event context)))
        by (eexists; exact H).
      split; [exact He | exact (error_body_not_echo _ _ He)].
    + right. assert (He : echo_body float_repr
                            (body (lambda_handler float_repr event context)))
        by (exists n, l; split; assumption).
      split; [exact He|]. intros Herr.
      exact (error_body_not_echo _ _ Herr He).
Qed.

End HandlerProperties.

Lemma lambda_handler_internal_error_witness :
  chain_raises PNone AttributeError
  /\ lambda_handler no_float_repr PNone tt
     = {| statusCode := 500;
          headers := [(str "Content-Type", str "application/json")];
          body := str "{" ++ quoted "error" ++ str ": "
                    ++ quoted "Internal server error" ++ str "}" |}.
Proof.
  assert (H : chain_raises PNone AttributeError)
    by (apply extract_raises; reflexivity).
  split; [exact H|].
  exact (lambda_handler_internal_error no_float_repr unit PNone tt AttributeError H).
Defined.

(** C6 as stated fails on the event whose [n] is [True]: validation
    accepts the boolean, the body echoes it as the JSON literal true, and
    that body is the encoding of neither stated object, whatever
    [float.__repr__] is. *)
Lemma lambda_handler_true_body :
  exists event : pyval,
    event = PDict [(str "n", PBool true)]
    /\ forall float_repr : spec_float -> pystr,
         let r := lambda_handler float_repr event tt in
         statusCode r = 200
         /\ body r = str "{" ++ quoted "n" ++ str ": true, "
                       ++ quoted "sequence" ++ str ": [0, 1]}"
         /\ ~ error_body float_repr (body r)
         /\ ~ result_body float_repr (body r).
Proof.
  eexists. split; [reflexivity|]. intros float_repr r. subst r.
  split; [reflexivity|]. split; [reflexivity|]. split.
  - intros [message H]. rewrite json_dumps_error in H. discriminate H.
  - intros (n & sequence & H). rewrite json_dumps_echo in H.
    cbn [json_dumps] in H.
    destruct (int_repr_head n) as (c & rest & Hr & Hc). rewrite Hr in H.
    injection H as H _. lia.
Qed.

(** * Further properties of [validate_input] *)

Lemma validate_input_in_range (v : pyval) (z : Z) :
  int_value v = Some z -> 0 <= z <= 1000 -> validate_input v = Ret (true, []).
Proof.
  intros Hz [Hlo Hhi].
  rewrite (validate_input_of_int_value v z Hz), validate_input_int.
  destruct (Z.ltb_spec z 0); [lia|].
  destruct (z >? 1000) eqn:E; [apply Z.gtb_lt in E; lia | reflexivity].
Qed.

(** X1: the flag is true exactly on an instance of [int] from 0 to 1000. *)
Theorem validate_input_valid_iff :
  forall v : pyval,
    validate_input v = Ret (true, [])
    <-> exists z, int_value v = Some z /\ 0 <= z <= 1000.
Proof.
  intros v. split.
  - intros H. apply validate_input_valid in H as (_ & z & Hz & Hr).
    exists z. split; assumption.
  - intros (z & Hz & Hr). exact (validate_input_in_range v z Hz Hr).
Qed.

Lemma validate_input_invalid_message (v : pyval) (message : pystr) :
  validate_input v = Ret (false, message) -> In message validation_messages.
Proof.
  assert (Hint : forall z, validate_input (PInt z) = Ret (false, message) ->
                           In message validation_messages).
  { intros z. rewrite validate_input_int.
    destruct (z <? 0); [intros [= <-]; cbn; auto|].
    destruct (z >? 1000); [intros [= <-]; cbn; auto | discriminate]. }
  destruct v as [ | b | z | f | s | l | d ];
    try (intros [= <-]; cbn; auto).
  - rewrite validate_input_bool. apply Hint.
  - apply Hint.
Qed.

(** X2: a failed validation answers with one of four fixed messages, and which
    one tells the rule that failed: the value was absent, was no instance of
    [int], was negative, or was above 1000. *)
Theorem validate_input_failure_reason :
  forall (v : pyval) (message : pystr),
    validate_input v = Ret (false, message) ->
    (message = str "Input parameter 'n' is required" /\ v = PNone)
    \/ (message = str "Input must be an integer"
        /\ v <> PNone /\ int_value v = None)
    \/ (message = str "Input must be a non-negative integer"
        /\ exists z, int_value v = Some z /\ z < 0)
    \/ (message = str "Input must not exceed 1000"
        /\ exists z, int_value v = Some z /\ 1000 < z).
Proof.
  assert (Hint : forall v z, int_value v = Some z ->
            forall message, validate_input v = Ret (false, message) ->
            (message = str "Input must be a non-negative integer" /\ z < 0)
            \/ (message = str "Input must not exceed 1000" /\ 1000 < z)).
  { intros v z Hz message.
    rewrite (validate_input_of_int_value v z Hz), validate_input_int.
    destruct (Z.ltb_spec z 0); [intros [= <-]; left; split; [reflexivity | lia]|].
    destruct (z >? 1000) eqn:E; [|discriminate].
    apply Z.gtb_lt in E. intros [= <-]. right; split; [reflexivity | lia]. }
  intros v message H.
  destruct (int_value v) as [z|] eqn:Hz.
  - destruct (Hint v z Hz message H) as [[-> Hneg] | [-> Hbig]].
    + right; right; left. split; [reflexivity|]. exists z. split; [reflexivity | exact Hneg].
    + right; right; right. split; [reflexivity|]. exists z. split; [reflexivity | exact Hbig].
  - destruct v as [ | b | z | f | s | l | d ]; try discriminate Hz;
      injection H as <-;
      solve [ left; split; reflexivity
            | right; left; split; [reflexivity | split; [discriminate | reflexivity]] ].
Qed.

Lemma validate_input_failure_reason_witness :
  validate_input (PInt 2000) = Ret (false, str "Input must not exceed 1000")
  /\ ((str "Input must not exceed 1000" = str "Input parameter 'n' is required"
       /\ PInt 2000 = PNone)
      \/ (str "Input must not exceed 1000" = str "Input must be an integer"
          /\ PInt 2000 <> PNone /\ int_value (PInt 2000) = None)
      \/ (str "Input must not exceed 1000" = str "Input must be a non-negative integer"
          /\ exists z, int_value (PInt 2000) = Some z /\ z < 0)
      \/ (str "Input must not exceed 1000" = str "Input must not exceed 1000"
          /\ exists z, int_value (PInt 2000) = Some z /\ 1000 < z)).
Proof.
  split; [reflexivity|].
  apply (validate_input_failure_reason (PInt 2000)). reflexivity.
Defined.

(** * Further properties of [generate_fibonacci] *)

Lemma fib_pair_nonneg (n : nat) : 0 <= fib n /\ 0 <= fib (S n).
Proof.
  induction n as [|n [IH0 IH1]]; [cbn; lia|].
  split; [exact IH1 | rewrite fib_rec; lia].
Qed.

Lemma fib_nonneg (n : nat) : 0 <= fib n.
Proof. apply fib_pair_nonneg. Qed.

Lemma fib_step_le (n : nat) : fib n <= fib (S n).
Proof.
  destruct n as [|k]; [cbn; lia|].
  rewrite fib_rec. pose proof (fib_nonneg k). lia.
Qed.

Lemma fib_le (i j : nat) : (i <= j)%nat -> fib i <= fib j.
Proof.
  induction 1 as [|j _ IH]; [lia|].
  pose proof (fib_step_le j). lia.
Qed.

Lemma fib_list_app (a b : nat) :
  fib_list (a + b) = fib_list a ++ map fib (seq a b).
Proof. unfold fib_list. rewrite seq_app, map_app. reflexivity. Qed.

Lemma fib_list_nth_inv (len i : nat) (x : Z) :
  nth_error (fib_list len) i = Some x -> x = fib i.
Proof.
  intros H. assert (Hi : (i < len)%nat).
  { rewrite <- (fib_list_length len). apply nth_error_Some. congruence. }
  rewrite fib_list_nth in H by assumption. congruence.
Qed.

Lemma generate_fibonacci_empty_range (n : Z) :
  n < 0 -> generate_fibonacci (PInt n) = Ret [0; 1].
Proof.
  intros Hn. unfold generate_fibonacci. cbn [py_eq_int].
  destruct (Z.eqb_spec n 0) as [->|_]; [lia|].
  destruct (Z.eqb_spec n 1) as [->|_]; [lia|].
  cbn [py_add_int bind py_range int_value].
  replace (Z.to_nat (n + 1 - 2)) with 0%nat by lia.
  reflexivity.
Qed.

(** X3: for every non-negative integer, with no upper bound, the list returned
    is the one of the Fibonacci numbers of index 0 to [n]. *)
Theorem generate_fibonacci_unbounded :
  forall n : Z, 0 <= n ->
    generate_fibonacci (PInt n) = Ret (map fib (seq 0 (S (Z.to_nat n)))).
Proof. intros n Hn. exact (generate_fibonacci_fib_list n Hn). Qed.

Lemma generate_fibonacci_unbounded_witness :
  0 <= 1500
  /\ generate_fibonacci (PInt 1500) = Ret (map fib (seq 0 (S (Z.to_nat 1500)))).
Proof.
  split; [lia | apply (generate_fibonacci_unbounded 1500); lia].
Defined.

(** X4: on an integer the function never raises: the indices the loop reads
    are always in range.  The list has [n + 1] elements, and 2 when [n] is
    negative. *)
Theorem generate_fibonacci_int_returns :
  forall n : Z, exists sequence,
    generate_fibonacci (PInt n) = Ret sequence
    /\ Z.of_nat (List.length sequence) = if n <? 0 then 2 else n + 1.
Proof.
  intros n. destruct (Z.ltb_spec n 0) as [Hneg|Hpos].
  - exists [0; 1]. split; [apply generate_fibonacci_empty_range; exact Hneg | reflexivity].
  - exists (fib_list (S (Z.to_nat n))).
    split; [apply generate_fibonacci_fib_list; exact Hpos|].
    rewrite fib_list_length. lia.
Qed.

(** X5: the list for [m] is the beginning of the list for any larger [n]. *)
Theorem generate_fibonacci_prefix :
  forall m n : Z, 0 <= m <= n ->
    exists shorter rest,
      generate_fibonacci (PInt m) = Ret shorter
      /\ generate_fibonacci (PInt n) = Ret (shorter ++ rest)
      /\ Z.of_nat (List.length rest) = n - m.
Proof.
  intros m n [Hm Hmn].
  exists (fib_list (S (Z.to_nat m))),
         (map fib (seq (S (Z.to_nat m)) (Z.to_nat (n - m)))).
  split; [apply generate_fibonacci_fib_list; exact Hm|].
  split.
  - rewrite generate_fibonacci_fib_list by lia.
    rewrite <- fib_list_app. f_equal. f_equal. lia.
  - rewrite length_map, length_seq. lia.
Qed.

Lemma generate_fibonacci_prefix_witness :
  0 <= 3 <= 6
  /\ exists shorter rest,
       generate_fibonacci (PInt 3) = Ret shorter
       /\ generate_fibonacci (PInt 6) = Ret (shorter ++ rest)
       /\ Z.of_nat (List.length rest) = 6 - 3.
Proof.
  split; [lia | apply (generate_fibonacci_prefix 3 6); lia].
Defined.

(** X6: whatever the integer, the elements of the list returned are
    non-negative and in non-decreasing order. *)
Theorem generate_fibonacci_sorted :
  forall (n : Z) (sequence : list Z) (i j : nat) (a b : Z),
    generate_fibonacci (PInt n) = Ret sequence ->
    (i <= j)%nat ->
    nth_error sequence i = Some a -> nth_error sequence j = Some b ->
    0 <= a <= b.
Proof.
  intros n sequence i j a b Hg Hij Ha Hb.
  assert (Hs : exists len, sequence = fib_list len).
  { destruct (Z.ltb_spec n 0) as [Hneg|Hpos].
    - rewrite generate_fibonacci_empty_range in Hg by exact Hneg.
      injection Hg as <-. exists 2%nat. reflexivity.
    - rewrite generate_fibonacci_fib_list in Hg by exact Hpos.
      injection Hg as <-. eexists; reflexivity. }
  destruct Hs as [len ->].
  apply fib_list_nth_inv in Ha, Hb. subst a b.
  split; [apply fib_nonneg | apply fib_le; exact Hij].
Qed.

Lemma generate_fibonacci_sorted_witness :
  generate_fibonacci (PInt 5) = Ret [0; 1; 1; 2; 3; 5]
  /\ (2 <= 4)%nat
  /\ nth_error [0; 1; 1; 2; 3; 5] 2 = Some 1
  /\ nth_error [0; 1; 1; 2; 3; 5] 4 = Some 3
  /\ 0 <= 1 <= 3.
Proof.
  split; [reflexivity|]. split; [lia|].
  split; [reflexivity|]. split; [reflexivity|].
  apply (generate_fibonacci_sorted 5 [0; 1; 1; 2; 3; 5] 2 4 1 3);
    [reflexivity | lia | reflexivity | reflexivity].
Defined.

Lemma generate_fibonacci_off_contract (v : pyval) :
  int_value v = None ->
  generate_fibonacci v =
    if py_eq_int v 0 then Ret [0]
    else if py_eq_int v 1 then Ret [0; 1]
    else Raise TypeError.
Proof.
  intros Hv. destruct v as [ | b | z | f | s | l | d ];
    try discriminate Hv; reflexivity.
Qed.

(** X7: outside its contract, on a value that is no instance of [int]: the two
    edge cases compare by value, so a float equal to 0 gives the list of 0
    and a float equal to 1 the list of 0 and 1; every other value raises
    [TypeError], a float at [range] and the rest at the addition. *)
Theorem generate_fibonacci_not_int :
  forall v : pyval, int_value v = None ->
    generate_fibonacci v =
      if py_eq_int v 0 then Ret [0]
      else if py_eq_int v 1 then Ret [0; 1]
      else Raise TypeError.
Proof. exact generate_fibonacci_off_contract. Qed.

Lemma generate_fibonacci_not_int_witness :
  int_value (PFloat float_five) = None
  /\ generate_fibonacci (PFloat float_five) =
       if py_eq_int (PFloat float_five) 0 then Ret [0]
       else if py_eq_int (PFloat float_five) 1 then Ret [0; 1]
       else Raise TypeError.
Proof.
  split; [reflexivity|].
  apply (generate_fibonacci_not_int (PFloat float_five)). reflexivity.
Defined.

(** X8: whatever the argument, a list that is returned is not empty and starts
    with 0. *)
Theorem generate_fibonacci_starts_with_zero :
  forall (v : pyval) (sequence : list Z),
    generate_fibonacci v = Ret sequence -> nth_error sequence 0 = Some 0.
Proof.
  intros v sequence H.
  destruct (int_value v) as [z|] eqn:Hz.
  - rewrite (generate_fibonacci_of_int_value v z Hz) in H.
    destruct (Z.ltb_spec z 0) as [Hneg|Hpos].
    + rewrite generate_fibonacci_empty_range in H by exact Hneg.
      injection H as <-. reflexivity.
    + rewrite generate_fibonacci_fib_list in H by exact Hpos.
      injection H as <-. reflexivity.
  - rewrite (generate_fibonacci_off_contract v Hz) in H.
    destruct (py_eq_int v 0); [injection H as <-; reflexivity|].
    destruct (py_eq_int v 1); [injection H as <-; reflexivity | discriminate H].
Qed.

(** * Further properties of [lambda_handler] *)

(** None of the four messages has a character that the encoder escapes. *)
Lemma encode_str_validation_message (message : pystr) :
  In message validation_messages ->
  encode_str message = [34%N] ++ message ++ [34%N].
Proof.
  intros [<- | [<- | [<- | [<- | []]]]]; reflexivity.
Qed.

Lemma json_dumps_int_list (float_repr : spec_float -> pystr) (l : list Z) :
  json_dumps float_repr (PList (map PInt l))
  = str "[" ++ join (str ", ") (map int_repr l) ++ str "]".
Proof.
  cbn [json_dumps]. rewrite map_map. reflexivity.
Qed.

Section HandlerOutcomes.

Variable float_repr : spec_float -> pystr.

(** The status, by the step that decides it. *)
Lemma lambda_handler_status (C : Type) (event : pyval) (context : C) :
  statusCode (lambda_handler float_repr event context)
  = match parse_event event with
    | Raise _ => 500
    | Ret n => match validate_input n with
               | Ret (true, _) => 200
               | Ret (false, _) => 400
               | Raise _ => 500
               end
    end.
Proof.
  unfold lambda_handler, handler_try.
  destruct (parse_event event) as [n|e]; cbn [bind]; [|reflexivity].
  destruct (validate_input n) as [[valid message]|e] eqn:Hv; cbn [bind];
    [|reflexivity].
  destruct valid; cbn [negb]; [|reflexivity].
  destruct (generate_fibonacci_after_validation n message Hv) as [l ->].
  reflexivity.
Qed.

(** X10: the status is 500 exactly when the event is no dict, and 200 exactly
    when the event is a dict whose [n] is an instance of [int] from 0 to
    1000; it is 400 on every other event. *)
Theorem lambda_handler_status_iff :
  forall (C : Type) (event : pyval) (context : C),
    let r := lambda_handler float_repr event context in
    (statusCode r = 500 <-> forall items, event <> PDict items)
    /\ (statusCode r = 200 <->
        exists items n z,
          event = PDict items /\ assoc_get (str "n") items = Some n
          /\ int_value n = Some z /\ 0 <= z <= 1000)
    /\ (statusCode r = 400 \/ statusCode r = 200 \/ statusCode r = 500).
Proof.
  intros C event context r. subst r. rewrite lambda_handler_status.
  destruct event as [ | b | z | f | s | l | items ];
    try (cbn [parse_event py_get]; split; [|split];
         [ split; [intros _ items; discriminate | reflexivity]
         | split; [discriminate | intros (items & n & z' & H & _); discriminate H]
         | auto ]).
  unfold parse_event, py_get.
  assert (H500 : forall k : Z, k <> 500 ->
            (k = 500 <-> forall items', PDict items <> PDict items')).
  { intros k Hk. split; [intros Habs; contradiction|].
    intros Hd. contradiction (Hd items); reflexivity. }
  destruct (assoc_get (str "n") items) as [n|] eqn:Hget.
  - destruct (validate_input_returns n) as (valid & message & Hv). rewrite Hv.
    destruct valid.
    + split; [apply H500; discriminate|]. split; [|auto].
      split; [intros _ | reflexivity].
      apply validate_input_valid in Hv as (_ & z & Hz & Hr).
      exists items, n, z. repeat split; try assumption; apply Hr.
    + split; [apply H500; discriminate|]. split; [|auto].
      split; [discriminate|].
      intros (items' & n' & z & Heq & Hget' & Hz & Hr).
      injection Heq as Heq. subst items'.
      rewrite Hget in Hget'. injection Hget' as Hn. subst n'.
      pose proof (validate_input_in_range n z Hz Hr) as Ht.
      rewrite Hv in Ht. discriminate Ht.
  - cbn -[str assoc_get]. split; [apply H500; discriminate|]. split; [|auto].
    split; [discriminate|].
    intros (items' & n' & z & Heq & Hget' & _).
    injection Heq as Heq. subst items'.
    rewrite Hget in Hget'. discriminate Hget'.
Qed.

(** X11: on an event whose [n] is an instance of [int] from 0 to 1000 the
    response has status 200 and its body is the text of the object with [n]
    echoed and, under [sequence], the Fibonacci numbers of index 0 to [n]
    in decimal, separated by a comma and a space. *)
Theorem lambda_handler_success :
  forall (C : Type) (event : pyval) (context : C) (n : pyval) (z : Z),
    parse_event event = Ret n -> int_value n = Some z -> 0 <= z <= 1000 ->
    lambda_handler float_repr event context
    = {| statusCode := 200;
         headers := [(str "Content-Type", str "application/json")];
         body := str "{" ++ quoted "n" ++ str ": "
                   ++ (json_dumps float_repr n
                         ++ str ", " ++ quoted "sequence" ++ str ": "
                         ++ (str "["
                               ++ join (str ", ")
                                    (map int_repr
                                       (map fib (seq 0 (S (Z.to_nat z)))))
                               ++ str "]"))
                   ++ str "}" |}.
Proof.
  intros C event context n z Hp Hz Hr.
  unfold lambda_handler, handler_try. rewrite Hp. cbn [bind].
  rewrite (validate_input_in_range n z Hz Hr). cbn [bind negb].
  rewrite (generate_fibonacci_of_int_value n z Hz).
  rewrite generate_fibonacci_fib_list by lia. cbn [bind].
  rewrite json_dumps_echo, json_dumps_int_list. reflexivity.
Qed.

(** X12: on an event whose [n] fails validation the response has status 400 and
    its body carries the validator's message verbatim, one of the four
    fixed ones. *)
Theorem lambda_handler_client_error :
  forall (C : Type) (event : pyval) (context : C) (n : pyval) (message : pystr),
    parse_event event = Ret n -> validate_input n = Ret (false, message) ->
    In message validation_messages
    /\ lambda_handler float_repr event context
       = {| statusCode := 400;
            headers := [(str "Content-Type", str "application/json")];
            body := error_text message |}.
Proof.
  intros C event context n message Hp Hv.
  pose proof (validate_input_invalid_message n message Hv) as Hin.
  split; [exact Hin|].
  unfold lambda_handler, handler_try. rewrite Hp. cbn [bind].
  rewrite Hv. cbn [bind negb].
  rewrite json_dumps_error, (encode_str_validation_message message Hin).
  unfold error_text. rewrite <- !app_assoc. reflexivity.
Qed.

(** X13: the response depends on the event only through what [event.get]
    gives for [n]: keys other than [n] are ignored, and a dict without [n]
    is answered like one that binds [n] to [None]. *)
Theorem lambda_handler_reads_only_n :
  forall (C1 C2 : Type) (event1 event2 : pyval)
         (context1 : C1) (context2 : C2),
    parse_event event1 = parse_event event2 ->
    lambda_handler float_repr event1 context1
    = lambda_handler float_repr event2 context2.
Proof.
  intros C1 C2 event1 event2 context1 context2 H.
  unfold lambda_handler, handler_try. rewrite H. reflexivity.
Qed.

(** X14: the status tells the shape of the body: 200 goes with the echoed [n]
    and its sequence, and every other status with an error message. *)
Theorem lambda_handler_status_shape :
  forall (C : Type) (event : pyval) (context : C),
    let r := lambda_handler float_repr event context in
    (statusCode r = 200 <-> echo_body float_repr (body r))
    /\ (statusCode r <> 200 <-> error_body float_repr (body r)).
Proof.
  intros C event context r. subst r.
  destruct (lambda_handler_cases float_repr C event context)
    as [[Hs Hb] | [(m & Hs & Hb) | (n & l & Hs & Hn & Hb)]].
  - assert (He : error_body float_repr
                   (body (lambda_handler float_repr event context)))
      by (eexists; exact Hb).
    rewrite Hs. split; split; try discriminate; try (intros _; exact He).
    intros Hecho. contradiction (error_body_not_echo _ _ He Hecho).
  - assert (He : error_body float_repr
                   (body (lambda_handler float_repr event context)))
      by (eexists; exact Hb).
    rewrite Hs. split; split; try discriminate; try (intros _; exact He).
    intros Hecho. contradiction (error_body_not_echo _ _ He Hecho).
  - assert (He : echo_body float_repr
                   (body (lambda_handler float_repr event context)))
      by (exists n, l; split; assumption).
    rewrite Hs. split; split; try reflexivity; try (intros _; exact He).
    + intros Habs. contradiction Habs; reflexivity.
    + intros Herr. contradiction (error_body_not_echo _ _ Herr He).
Qed.

End HandlerOutcomes.

Lemma lambda_handler_success_witness :
  parse_event (PDict [(str "user", PStr (str "ada")); (str "n", PInt 3)])
    = Ret (PInt 3)
  /\ int_value (PInt 3) = Some 3
  /\ 0 <= 3 <= 1000
  /\ lambda_handler no_float_repr
       (PDict [(str "user", PStr (str "ada")); (str "n", PInt 3)]) tt
     = {| statusCode := 200;
          headers := [(str "Content-Type", str "application/json")];
          body := str "{" ++ quoted "n" ++ str ": "
                    ++ (json_dumps no_float_repr (PInt 3)
                          ++ str ", " ++ quoted "sequence" ++ str ": "
                          ++ (str "["
                                ++ join (str ", ")
                                     (map int_repr
                                        (map fib (seq 0 (S (Z.to_nat 3)))))
                                ++ str "]"))
                    ++ str "}" |}.
Proof.
  split; [reflexivity|]. split; [reflexivity|]. split; [lia|].
  apply (lambda_handler_success no_float_repr unit
           (PDict [(str "user", PStr (str "ada")); (str "n", PInt 3)])
           tt (PInt 3) 3); [reflexivity | reflexivity | lia].
Defined.

Lemma lambda_handler_client_error_witness :
  parse_event (PDict [(str "n", PInt (-5))]) = Ret (PInt (-5))
  /\ validate_input (PInt (-5))
     = Ret (false, str "Input must be a non-negative integer")
  /\ In (str "Input must be a non-negative integer") validation_messages
  /\ lambda_handler no_float_repr (PDict [(str "n", PInt (-5))]) tt
     = {| statusCode := 400;
          headers := [(str "Content-Type", str "application/json")];
          body := error_text (str "Input must be a non-negative integer") |}.
Proof.
  split; [reflexivity|]. split; [reflexivity|].
  apply (lambda_handler_client_error no_float_repr unit
           (PDict [(str "n", PInt (-5))]) tt (PInt (-5))
           (str "Input must be a non-negative integer"));
    reflexivity.
Defined.

Lemma lambda_handler_reads_only_n_witness :
  parse_event (PDict [])
    = parse_event (PDict [(str "user", PStr (str "ada")); (str "n", PNone)])
  /\ lambda_handler no_float_repr (PDict []) tt
     = lambda_handler no_float_repr
         (PDict [(str "user", PStr (str "ada")); (str "n", PNone)]) true.
Proof.
  split; [reflexivity|].
  apply (lambda_handler_reads_only_n no_float_repr unit bool
           (PDict [])
           (PDict [(str "user", PStr (str "ada")); (str "n", PNone)]) tt true).
  reflexivity.
Defined.

(** * Validation followed by generation *)

(** X9: a value that passes validation is an instance of [int] from 0 to
    1000, and on it the generator returns, without raising, a list of one
    element more than the value, so of at most 1001 elements. *)
Theorem validated_input_generates :
  forall (n : pyval) (message : pystr),
    validate_input n = Ret (true, message) ->
    exists z sequence,
      int_value n = Some z
      /\ generate_fibonacci n = Ret sequence
      /\ Z.of_nat (List.length sequence) = z + 1
      /\ (List.length sequence <= 1001)%nat.
Proof.
  intros n message H.
  apply validate_input_valid in H as (_ & z & Hz & Hr).
  exists z, (fib_list (S (Z.to_nat z))).
  split; [exact Hz|].
  rewrite (generate_fibonacci_of_int_value n z Hz).
  rewrite generate_fibonacci_fib_list by lia.
  rewrite fib_list_length. repeat split; lia.
Qed.

Lemma validated_input_generates_witness :
  validate_input (PBool true) = Ret (true, [])
  /\ exists z sequence,
       int_value (PBool true) = Some z
       /\ generate_fibonacci (PBool true) = Ret sequence
       /\ Z.of_nat (List.length sequence) = z + 1
       /\ (List.length sequence <= 1001)%nat.
Proof.
  split; [reflexivity|].
  apply (validated_input_generates (PBool true) []). reflexivity.
Defined.

Lemma generate_fibonacci_starts_with_zero_witness :
  generate_fibonacci (PInt 4) = Ret [0; 1; 1; 2; 3]
  /\ nth_error [0; 1; 1; 2; 3] 0 = Some 0.
Proof.
  split; [reflexivity|].
  apply (generate_fibonacci_starts_with_zero (PInt 4) [0; 1; 1; 2; 3]).
  reflexivity.
Defined.

(** * The response body is printable ASCII *)

Lemma forallb_flat_map {A B : Type} (p : B -> bool) (f : A -> list B) (l : list A) :
  (forall a, forallb p (f a) = true) -> forallb p (flat_map f l) = true.
Proof.
  intros Hf. induction l as [|a l IH]; [reflexivity|].
  cbn [flat_map]. rewrite forallb_app, Hf, IH. reflexivity.
Qed.

Lemma printable_hex_digit (d : N) : (d < 16)%N -> printable (hex_digit d) = true.
Proof.
  intros Hd. unfold printable, hex_digit.
  destruct (N.ltb_spec d 10); apply andb_true_iff; split; apply N.leb_le; lia.
Qed.

Lemma printable_u_escape (n : N) : forallb printable (u_escape n) = true.
Proof.
  unfold u_escape, hex4. cbn [app forallb].
  rewrite !printable_hex_digit by (apply N.mod_lt; discriminate).
  reflexivity.
Qed.

Lemma printable_escape_char (c : N) : forallb printable (escape_char c) = true.
Proof.
  unfold escape_char.
  repeat match goal with
         | |- forallb printable (if (c =? ?k)%N then _ else _) = true =>
             destruct (c =? k)%N; [reflexivity|]
         end.
  destruct ((32 <=? c) && (c <=? 126))%N eqn:E.
  - cbn [forallb]. unfold printable. rewrite E. reflexivity.
  - destruct (c <? 65536)%N; [apply printable_u_escape|].
    cbv zeta. rewrite forallb_app, !printable_u_escape. reflexivity.
Qed.

(** Whatever the text, its encoding has only printable ASCII. *)
Lemma printable_encode_str (s : pystr) : forallb printable (encode_str s) = true.
Proof.
  unfold encode_str. rewrite !forallb_app.
  rewrite (forallb_flat_map printable escape_char s printable_escape_char).
  reflexivity.
Qed.

Lemma printable_string_of_uint (d : Decimal.uint) :
  forallb printable (str (NilEmpty.string_of_uint d)) = true.
Proof.
  induction d; cbn [NilEmpty.string_of_uint str list_ascii_of_string map forallb];
    [reflexivity | ..]; exact IHd.
Qed.

Lemma printable_int_repr (z : Z) : forallb printable (int_repr z) = true.
Proof.
  unfold int_repr. destruct z as [|p|p]; cbn [Z.to_int NilEmpty.string_of_int].
  - reflexivity.
  - apply printable_string_of_uint.
  - cbn [str list_ascii_of_string map forallb].
    exact (printable_string_of_uint (Pos.to_uint p)).
Qed.

Lemma printable_join (sep : pystr) (parts : list pystr) :
  forallb printable sep = true ->
  (forall p, In p parts -> forallb printable p = true) ->
  forallb printable (join sep parts) = true.
Proof.
  intros Hsep. induction parts as [|p rest IH]; intros Hparts; [reflexivity|].
  cbn [join]. destruct rest as [|q rest'].
  - apply Hparts. left; reflexivity.
  - rewrite !forallb_app, Hsep, (Hparts p (or_introl eq_refl)).
    rewrite IH by (intros p' Hp'; apply Hparts; right; exact Hp').
    reflexivity.
Qed.

Section BodyText.

Variable float_repr : spec_float -> pystr.

Lemma printable_json_dumps_int_instance (n : pyval) :
  isinstance_int n = true -> forallb printable (json_dumps float_repr n) = true.
Proof.
  destruct n as [ | [|] | z | f | s | l | d ]; try discriminate; intros _;
    [reflexivity | reflexivity | apply printable_int_repr].
Qed.

(** X15: on every event, whatever [float.__repr__] is, every character of the
    response body is printable ASCII, from the space to the tilde. *)
Theorem lambda_handler_body_printable :
  forall (C : Type) (event : pyval) (context : C),
    forallb printable (body (lambda_handler float_repr event context)) = true.
Proof.
  intros C event context.
  destruct (lambda_handler_cases float_repr C event context)
    as [[_ Hb] | [(m & _ & Hb) | (n & l & _ & Hn & Hb)]]; rewrite Hb.
  - reflexivity.
  - rewrite json_dumps_error, !forallb_app, printable_encode_str. reflexivity.
  - rewrite json_dumps_echo, json_dumps_int_list, !forallb_app.
    rewrite (printable_json_dumps_int_instance n Hn).
    rewrite printable_join; [reflexivity | reflexivity |].
    intros p Hp. apply in_map_iff in Hp as (z & <- & _).
    apply printable_int_repr.
Qed.

End BodyText.

(** * Repeated invocations in one process *)

Lemma list_update_length {A : Type} (l : list A) (i : nat) (x : A) :
  List.length (Process.list_update l i x) = List.length l.
Proof.
  revert i. induction l as [|h t IH]; intros [|i]; cbn; auto.
Qed.

Lemma list_update_nth {A : Type} (l : list A) (i : nat) (x y : A) :
  nth_error l i = Some y -> nth_error (Process.list_update l i x) i = Some x.
Proof.
  revert i. induction l as [|h t IH]; intros [|i]; cbn; try discriminate; auto.
Qed.

Lemma contents_nth (a : nat) (p : Process.process) (s : list Z) :
  nth_error (Process.heap p) a = Some s -> Process.contents a p = s.
Proof.
  intros H. unfold Process.contents. apply nth_error_nth. exact H.
Qed.

Lemma process_bind_run {A B : Type} (m : Process.M A) (k : A -> Process.M B)
    (p p' : Process.process) (r : result A) :
  m p = (r, p') ->
  Process.bind m k p
  = match r with
    | Ret a => k a p'
    | Raise e => (Raise e, p')
    end.
Proof. intros H. unfold Process.bind. rewrite H. reflexivity. Qed.

Lemma process_bind_lift {A B : Type} (r : result A) (k : A -> Process.M B)
    (p : Process.process) :
  Process.bind (Process.lift r) k p
  = match r with
    | Ret a => k a p
    | Raise e => (Raise e, p)
    end.
Proof. apply process_bind_run. reflexivity. Qed.

(** The loop on the heap against the loop on values: while the list at
    [a] holds [s], the two take the same steps, raise together, and the
    list at [a] ends as the value the pure loop returns. *)
Lemma process_loop (a : nat) (indices : list Z) :
  forall (s : list Z) (p : Process.process),
    nth_error (Process.heap p) a = Some s ->
    exists p',
      Process.for_each indices
        (fun i =>
           Process.bind (Process.list_getitem a (i - 1)) (fun x =>
           Process.bind (Process.list_getitem a (i - 2)) (fun y =>
           Process.list_append a (x + y)))) p
      = (match for_each indices s
                 (fun i sequence =>
                    x <- py_getitem sequence (i - 1) ;;
                    y <- py_getitem sequence (i - 2) ;;
                    Ret (sequence ++ [x + y]))
         with
         | Ret _ => Ret tt
         | Raise e => Raise e
         end, p')
      /\ forall s',
           for_each indices s
             (fun i sequence =>
                x <- py_getitem sequence (i - 1) ;;
                y <- py_getitem sequence (i - 2) ;;
                Ret (sequence ++ [x + y])) = Ret s' ->
           nth_error (Process.heap p') a = Some s'.
Proof.
  induction indices as [|i rest IH]; intros s p Hs.
  - exists p. split; [reflexivity|]. cbn. intros s' [= <-]. exact Hs.
  - cbn [Process.for_each for_each].
    unfold Process.bind at 1 2 3. unfold Process.list_getitem.
    rewrite (contents_nth a p s Hs).
    destruct (py_getitem s (i - 1)) as [x|e];
      [|exists p; split; [reflexivity | discriminate]].
    destruct (py_getitem s (i - 2)) as [y|e];
      [|exists p; split; [reflexivity | discriminate]].
    cbn [bind]. unfold Process.list_append.
    rewrite (contents_nth a p s Hs).
    apply IH. cbn [Process.heap].
    exact (list_update_nth _ a _ s Hs).
Qed.

(** The generator on the heap returns the address of a list that holds
    what the generator on values returns, and raises when that one does. *)
Lemma process_generate_fibonacci (n : pyval) (p : Process.process) :
  exists p',
    match generate_fibonacci n with
    | Ret l =>
        exists a, Process.generate_fibonacci n p = (Ret a, p')
                  /\ nth_error (Process.heap p') a = Some l
    | Raise e => Process.generate_fibonacci n p = (Raise e, p')
    end.
Proof.
  unfold Process.generate_fibonacci, generate_fibonacci.
  assert (Hnew : forall items,
            nth_error (Process.heap p ++ [items]) (List.length (Process.heap p))
            = Some items).
  { intros items. rewrite nth_error_app2, Nat.sub_diag by lia. reflexivity. }
  destruct (py_eq_int n 0).
  { eexists. eexists. split; [reflexivity | apply Hnew]. }
  destruct (py_eq_int n 1).
  { eexists. eexists. split; [reflexivity | apply Hnew]. }
  rewrite (process_bind_run (Process.new_list [0; 1]) _ p _ _ eq_refl).
  rewrite process_bind_lift.
  destruct (py_add_int n 1) as [stop|e]; cbn [bind]; [|eexists; reflexivity].
  rewrite process_bind_lift.
  destruct (py_range 2 stop) as [indices|e]; cbn [bind]; [|eexists; reflexivity].
  destruct (process_loop (List.length (Process.heap p)) indices [0; 1]
              {| Process.modules := Process.modules p;
                 Process.heap := Process.heap p ++ [[0; 1]] |}
              (Hnew [0; 1])) as (p' & Hrun & Hcell).
  cbv zeta. rewrite (process_bind_run _ _ _ _ _ Hrun). exists p'.
  destruct (for_each indices [0; 1] _) as [l|e]; [|reflexivity].
  eexists. split; [reflexivity | apply Hcell; reflexivity].
Qed.

Section Repeated.

Variable float_repr : spec_float -> pystr.

(** From whatever process it starts, the handler on the heap returns the
    response the handler on values computes, and never raises. *)
Lemma process_lambda_handler (C : Type) (event : pyval) (context : C)
    (p : Process.process) :
  exists p',
    Process.lambda_handler float_repr event context p
    = (Ret (lambda_handler float_repr event context), p').
Proof.
  unfold Process.lambda_handler, lambda_handler, handler_try.
  assert (Himp : exists p0, Process.import_module "json" p = (Ret tt, p0)).
  { unfold Process.import_module. destruct (existsb _ _); eexists; reflexivity. }
  destruct Himp as [p0 Himp].
  rewrite (process_bind_run _ _ _ _ _ Himp).
  unfold Process.try_except. rewrite process_bind_lift.
  destruct (parse_event event) as [n|e]; cbn [bind]; [|eexists; reflexivity].
  rewrite process_bind_lift.
  destruct (validate_input n) as [[valid message]|e]; cbn [bind];
    [|eexists; reflexivity].
  destruct valid; cbn [negb]; [|eexists; reflexivity].
  destruct (process_generate_fibonacci n p0) as [p1 H].
  destruct (generate_fibonacci n) as [l|e].
  - destruct H as (a & H & Hcell).
    rewrite (process_bind_run _ _ _ _ _ H).
    rewrite (process_bind_run (Process.list_items a) _ p1 _ _ eq_refl).
    rewrite (contents_nth a p1 l Hcell). cbn [bind]. eexists; reflexivity.
  - rewrite (process_bind_run _ _ _ _ _ H). cbn [bind]. eexists; reflexivity.
Qed.

Lemma process_serve (C : Type) (requests : list (pyval * C))
    (p : Process.process) :
  fst (Process.serve float_repr requests p)
  = map (fun request =>
           Ret (lambda_handler float_repr (fst request) (snd request)))
        requests.
Proof.
  revert p. induction requests as [|[event context] rest IH]; intros p;
    [reflexivity|].
  cbn [Process.serve map fst snd].
  destruct (process_lambda_handler C event context p) as [p' ->].
  specialize (IH p').
  destruct (Process.serve float_repr rest p') as [rs p''].
  cbn [fst] in *. rewrite IH. reflexivity.
Qed.

(** C9: the handler is deterministic.  One invocation reads and changes
    the process it runs in (the imported modules, the lists on the heap),
    and receives a context.  Two invocations on the same event, from any
    two processes and with any two contexts, both return, and return the
    same response with the same body.  The same holds inside one process:
    among requests served one after the other, two with the same event are
    answered alike, whatever was served before them. *)
Theorem lambda_handler_repeatable :
  forall (C : Type) (event : pyval),
    (forall (p1 p2 : Process.process) (context1 context2 : C),
        exists r,
          fst (Process.lambda_handler float_repr event context1 p1) = Ret r
          /\ fst (Process.lambda_handler float_repr event context2 p2) = Ret r)
    /\ (forall (p : Process.process) (requests : list (pyval * C))
               (i j : nat) (context1 context2 : C),
           nth_error requests i = Some (event, context1) ->
           nth_error requests j = Some (event, context2) ->
           exists r,
             nth_error (fst (Process.serve float_repr requests p)) i
             = Some (Ret r)
             /\ nth_error (fst (Process.serve float_repr requests p)) j
                = Some (Ret r)).
Proof.
  intros C event. split.
  - intros p1 p2 context1 context2.
    exists (lambda_handler float_repr event context1).
    destruct (process_lambda_handler C event context1 p1) as [p1' ->].
    destruct (process_lambda_handler C event context2 p2) as [p2' ->].
    split; reflexivity.
  - intros p requests i j context1 context2 Hi Hj.
    exists (lambda_handler float_repr event context1).
    rewrite process_serve, !nth_error_map, Hi, Hj. split; reflexivity.
Qed.

End Repeated.

Lemma lambda_handler_repeatable_witness :
  let event := PDict [(str "n", PInt 4)] in
  let requests := [(event, 1%nat); (PList [], 2%nat); (event, 3%nat)] in
  let p := {| Process.modules := []; Process.heap := [[7; 7]] |} in
  nth_error requests 0 = Some (event, 1%nat)
  /\ nth_error requests 2 = Some (event, 3%nat)
  /\ exists r,
       nth_error (fst (Process.serve no_float_repr requests p)) 0 = Some (Ret r)
       /\ nth_error (fst (Process.serve no_float_repr requests p)) 2
          = Some (Ret r).
Proof.
  split; [reflexivity|]. split; [reflexivity|].
  apply (proj2 (lambda_handler_repeatable no_float_repr nat
                  (PDict [(str "n", PInt 4)]))
           {| Process.modules := []; Process.heap := [[7; 7]] |}
           [(PDict [(str "n", PInt 4)], 1%nat); (PList [], 2%nat);
            (PDict [(str "n", PInt 4)], 3%nat)]
           0%nat 2%nat 1%nat 3%nat); reflexivity.
Defined.
